(** * Pipeline design tool: a shallow embedding of [calculations.py]

    Python floats are modelled as real numbers.  The two places where the
    source produces [float('inf')] (the Reynolds number at zero viscosity and
    the hoop stress at non-positive wall thickness) return the extended value
    [ext].  The exceptions that the source can raise (a math domain error of
    [math.log10] or [math.sqrt], a float division by zero, a missing dictionary
    key) are the failing outcomes of the error monad [exc]. *)

From Stdlib Require Import Reals Psatz String List.
Import ListNotations.
Open Scope R_scope.
Open Scope string_scope.

(** ** Python outcomes *)

Inductive pyexn :=
| ValueError          (* math domain error *)
| ZeroDivisionError   (* float division by zero *)
| KeyError            (* dictionary lookup of a missing key *)
| NanValue.           (* the float computed is nan, outside the real model *)

Inductive exc (A : Type) :=
| Ok (a : A)
| Raise (e : pyexn).
Arguments Ok {A} a.
Arguments Raise {A} e.

Definition bind {A B} (m : exc A) (k : A -> exc B) : exc B :=
  match m with Ok a => k a | Raise e => Raise e end.

Notation "x <- m ;; k" := (bind m (fun x => k))
  (at level 61, m at next level, right associativity).

(** A float that may be [float('inf')]. *)
Inductive ext :=
| Fin (r : R)
| PInf.

Definition exc_map {A B} (g : A -> B) (m : exc A) : exc B :=
  match m with Ok a => Ok (g a) | Raise e => Raise e end.

(** Decisions on reals, as Python's comparisons. *)
Definition Rltb (x y : R) : bool := if Rlt_dec x y then true else false.
Definition Rleb (x y : R) : bool := if Rle_dec x y then true else false.
Definition Reqb (x y : R) : bool := if Req_EM_T x y then true else false.

(** [math.log10]: raises on a non-positive argument. *)
Definition py_log10 (x : R) : exc R :=
  if Rleb x 0 then Raise ValueError else Ok (ln x / ln 10).

(** [math.sqrt]: raises on a negative argument. *)
Definition py_sqrt (x : R) : exc R :=
  if Rltb x 0 then Raise ValueError else Ok (sqrt x).

(** Float division [x / y]: raises when [y == 0]. *)
Definition py_div (x y : R) : exc R :=
  if Reqb y 0 then Raise ZeroDivisionError else Ok (x / y).

(** [max(0, x)] *)
Definition py_max0 (x : R) : R := if Rltb 0 x then x else 0.

Definition G_ACCELERATION : R := 9.81.

(** ** constants.py: PIPE_GRADES *)

Record pipe_grade := mk_grade {
  grade_name : string;
  SMYS : R;
  tensile_strength : R;
  description : string }.

Definition PIPE_GRADES : list (string * pipe_grade) :=
  [ ("X42", mk_grade "API 5L X42" 290 414 "Carbon Steel, Seamless/Welded");
    ("X52", mk_grade "API 5L X52" 359 455 "Carbon Steel, Higher grade");
    ("X60", mk_grade "API 5L X60" 414 517 "High Strength Carbon Steel");
    ("X65", mk_grade "API 5L X65" 448 531 "High Strength Carbon Steel") ].

Fixpoint lookup_grade (k : string) (t : list (string * pipe_grade)) : option pipe_grade :=
  match t with
  | [] => None
  | (k', g) :: t' => if String.eqb k k' then Some g else lookup_grade k t'
  end.

(** [PIPE_GRADES[k]] *)
Definition PIPE_GRADES_get (k : string) : exc pipe_grade :=
  match lookup_grade k PIPE_GRADES with
  | Some g => Ok g
  | None => Raise KeyError
  end.

(** ** Section 1: FlowCalculations *)

Definition calculate_reynolds_number (velocity diameter viscosity : R) : ext :=
  if Reqb viscosity 0 then PInf else Fin ((velocity * diameter) / viscosity).

Definition calculate_flow_velocity (flow_rate_m3_s internal_diameter_m : R) : R :=
  if Rleb internal_diameter_m 0 then 0
  else let area := PI * (internal_diameter_m / 2) ^ 2 in
       flow_rate_m3_s / area.

(** [reynolds_number < c] on a possibly infinite Reynolds number. *)
Definition ext_ltb (x : ext) (c : R) : bool :=
  match x with Fin r => Rltb r c | PInf => false end.

Definition flow_regime_classification (reynolds_number : ext) : string :=
  if ext_ltb reynolds_number 2300 then "Laminar (smooth, organized)"
  else if ext_ltb reynolds_number 4000 then "Transitional (unstable)"
  else "Turbulent (chaotic, faster mixing)".

(** ** Section 2: FrictionFactorCalculations *)

Definition calculate_friction_factor_laminar (reynolds_number : R) : R :=
  if Rleb reynolds_number 0 then 0 else 64 / reynolds_number.

(** Outcome of one pass of the refinement loop body: [break] before a new
    value is computed, or the new value [f_new]. *)
Inductive loop_step :=
| Break
| Next (f_new : R).

(** The loop body of [calculate_friction_factor_turbulent_colebrook]:
<<
    term1 = 2.0 * math.log10(relative_roughness / 3.7)
    term2_denom = reynolds_number * math.sqrt(f_guess)
    if term2_denom == 0: break
    term2 = 2.0 * math.log10(2.51 / term2_denom)
    f_new = 1.0 / ((term1 + term2) ** 2)
>>
    With an infinite Reynolds number [term2_denom] is [inf] for a positive
    guess and [2.51 / inf == 0.0], on which [math.log10] raises; for a zero
    guess [inf * 0.0] is nan (the guess is never zero: see
    [colebrook_loop_no_nan]). *)
Definition colebrook_body (reynolds_number : ext) (relative_roughness f_guess : R)
  : exc loop_step :=
  l1 <- py_log10 (relative_roughness / 3.7) ;;
  let term1 := 2.0 * l1 in
  s <- py_sqrt f_guess ;;
  match reynolds_number with
  | Fin re =>
      let term2_denom := re * s in
      if Reqb term2_denom 0 then Ok Break
      else l2 <- py_log10 (2.51 / term2_denom) ;;
           let term2 := 2.0 * l2 in
           f_new <- py_div 1.0 ((term1 + term2) ^ 2) ;;
           Ok (Next f_new)
  | PInf =>
      if Reqb s 0 then Raise NanValue
      else l2 <- py_log10 0 ;;
           let term2 := 2.0 * l2 in
           f_new <- py_div 1.0 ((term1 + term2) ^ 2) ;;
           Ok (Next f_new)
  end.

(** [for _ in range(n)] over the body, with the convergence test
    [if abs(f_new - f_guess) < 1e-6: break] before [f_guess = f_new]. *)
Fixpoint colebrook_loop (n : nat) (reynolds_number : ext) (relative_roughness f_guess : R)
  : exc R :=
  match n with
  | O => Ok f_guess
  | S n' =>
      st <- colebrook_body reynolds_number relative_roughness f_guess ;;
      match st with
      | Break => Ok f_guess
      | Next f_new =>
          if Rltb (Rabs (f_new - f_guess)) 1e-6 then Ok f_guess
          else colebrook_loop n' reynolds_number relative_roughness f_new
      end
  end.

(** [5.74 / (reynolds_number ** 0.9)]; it is [0.0] for [inf]. *)
Definition swamee_jain_term (reynolds_number : ext) : R :=
  match reynolds_number with
  | Fin re => 5.74 / Rpower re 0.9
  | PInf => 0
  end.

(** Initial guess (Swamee-Jain):
    [0.25 / (math.log10(relative_roughness / 3.7 + 5.74 / (reynolds_number ** 0.9))) ** 2] *)
Definition colebrook_seed (reynolds_number : ext) (relative_roughness : R) : exc R :=
  l <- py_log10 (relative_roughness / 3.7 + swamee_jain_term reynolds_number) ;;
  py_div 0.25 (l ^ 2).

(** [0.316 * (reynolds_number ** -0.25)]; it is [0.0] for [inf]. *)
Definition blasius (reynolds_number : ext) : R :=
  match reynolds_number with
  | Fin re => 0.316 * Rpower re (-0.25)
  | PInf => 0
  end.

Definition calculate_friction_factor_turbulent_colebrook
    (reynolds_number : ext) (relative_roughness : R) : exc R :=
  if Rltb relative_roughness 0.00001 then Ok (blasius reynolds_number)
  else f_guess <- colebrook_seed reynolds_number relative_roughness ;;
       colebrook_loop 5 reynolds_number relative_roughness f_guess.

(** Returns [(friction_factor, flow_regime)]. *)
Definition calculate_friction_factor (reynolds_number : ext) (absolute_roughness diameter : R)
  : exc (R * string) :=
  if Rleb diameter 0 then Ok (0, "Invalid diameter")
  else
    let turbulent :=
      let relative_roughness := absolute_roughness / diameter in
      f <- calculate_friction_factor_turbulent_colebrook reynolds_number relative_roughness ;;
      Ok (f, "Turbulent") in
    match reynolds_number with
    | Fin re =>
        if Rltb re 2300 then Ok (calculate_friction_factor_laminar re, "Laminar")
        else turbulent
    | PInf => turbulent (* [inf < 2300] is false *)
    end.

(** ** Section 3: PressureDropCalculations *)

Definition calculate_friction_pressure_drop
    (friction_factor length_m diameter_m velocity_ms density_kg_m3 : R) : R :=
  if orb (Rleb diameter_m 0) (Rleb density_kg_m3 0) then 0
  else friction_factor * (length_m / diameter_m) * (density_kg_m3 * velocity_ms ^ 2 / 2).

Definition calculate_elevation_pressure_drop (elevation_gain_m density_kg_m3 : R) : R :=
  density_kg_m3 * G_ACCELERATION * elevation_gain_m.

(** Returns [(total_dp_pa, minor_losses_estimate_pa)]. *)
Definition calculate_total_pressure_drop (friction_dp_pa elevation_dp_pa : R) : R * R :=
  let minor_losses := Rabs friction_dp_pa * 0.10 in
  let total_dp := friction_dp_pa + elevation_dp_pa + minor_losses in
  (total_dp, minor_losses).

Definition convert_pressure_drop_to_bar_per_km (pressure_drop_pa length_km : R) : R :=
  if Rleb length_km 0 then 0
  else let pressure_drop_bar := pressure_drop_pa / 100000 in
       (pressure_drop_bar / length_km) * 100.

(** ** Section 4: PipeSizingCalculations *)

Definition calculate_internal_diameter (outside_diameter_mm wall_thickness_mm : R) : R :=
  outside_diameter_mm - 2 * wall_thickness_mm.

Definition calculate_required_wall_thickness
    (internal_pressure_mpa outside_diameter_mm smys_mpa design_factor : R) : R :=
  if orb (Rleb smys_mpa 0) (Rleb design_factor 0) then 0
  else (internal_pressure_mpa * outside_diameter_mm) / (2 * design_factor * smys_mpa).

Definition calculate_hoop_stress
    (internal_pressure_mpa outside_diameter_mm wall_thickness_mm : R) : ext :=
  if Rleb wall_thickness_mm 0 then PInf
  else Fin ((internal_pressure_mpa * outside_diameter_mm) / (2 * wall_thickness_mm)).

(** The dictionary returned by [check_pressure_containment]; its ['message']
    entry, a formatted string built from the other entries, is left out. *)
Record containment := mk_containment {
  safe : bool;
  margin_percent : R;
  hoop_stress : ext;
  allowable_stress : R }.

Definition check_pressure_containment (hoop_stress_mpa : ext) (smys_mpa design_factor : R)
  : containment :=
  let allowable_stress := design_factor * smys_mpa in
  (* [margin = (allowable_stress - hoop_stress_mpa) / allowable_stress * 100
      if allowable_stress > 0 else 0], reported as [max(0, margin)];
     with an infinite hoop stress the margin is [-inf] and [max(0, -inf) == 0] *)
  let margin :=
    if Rltb 0 allowable_stress then
      match hoop_stress_mpa with
      | Fin h => py_max0 ((allowable_stress - h) / allowable_stress * 100)
      | PInf => 0
      end
    else py_max0 0 in
  let is_safe :=
    match hoop_stress_mpa with
    | Fin h => Rleb h allowable_stress
    | PInf => false
    end in
  mk_containment is_safe margin hoop_stress_mpa allowable_stress.

(** ** Section 5: PipelineAnalysis *)

Record pipeline_input := mk_input {
  flow_rate_m3_s : R;
  pipe_od_mm : R;
  wall_thickness_mm : R;
  pipe_length_km : R;
  elevation_start_m : R;
  elevation_end_m : R;
  operating_pressure_bar : R;
  fluid_density_kg_m3 : R;
  fluid_viscosity_pa_s : R;
  pipe_roughness_m : R;
  pipe_grade_key : string }.

Record pipe_dimensions := mk_dimensions {
  outside_diameter_mm : R;
  dim_wall_thickness_mm : R;
  internal_diameter_mm : R;
  internal_diameter_m : R }.

Record flow_properties := mk_flow {
  velocity_ms : R;
  reynolds_number : ext;
  flow_regime : string;
  fluid_density : R;
  fluid_viscosity : R }.

Record friction := mk_friction {
  friction_factor : R;
  calculation_method : string;
  pipe_roughness : R }.

Record pressure_drop := mk_pressure_drop {
  friction_loss_pa : R;
  friction_loss_bar : R;
  elevation_change_pa : R;
  elevation_change_bar : R;
  minor_losses_pa : R;
  minor_losses_bar : R;
  total_pressure_drop_pa : R;
  total_pressure_drop_bar : R;
  bar_per_100km : R }.

Record outlet_pressure := mk_outlet {
  inlet_pressure_bar : R;
  outlet_pressure_bar : R;
  pressure_loss_percent : R }.

(** ['compliance_message'] is left out, as in [containment]. *)
Record pressure_containment := mk_pc {
  design_pressure_bar : R;
  design_pressure_mpa : R;
  hoop_stress_mpa : ext;
  allowable_stress_mpa : R;
  pc_safe : bool;
  safety_margin_percent : R }.

(** [has_warning] tells whether the ['warning'] key is set. *)
Record velocity_check := mk_velocity_check {
  vc_velocity_ms : R;
  velocity_limit_typical_ms : R;
  within_limit : bool;
  has_warning : bool }.

(** The [results] dictionary with its eight sections. *)
Record report := mk_report {
  r_input : pipeline_input;
  r_pipe_dimensions : pipe_dimensions;
  r_flow_properties : flow_properties;
  r_friction : friction;
  r_pressure_drop : pressure_drop;
  r_outlet_pressure : outlet_pressure;
  r_pressure_containment : pressure_containment;
  r_velocity_check : velocity_check }.

(** Step 6: outlet pressure section. *)
Definition outlet_section (operating_pressure_bar dp_total : R) : outlet_pressure :=
  let inlet_pressure_pa := operating_pressure_bar * 100000 in
  let outlet_pressure_pa := inlet_pressure_pa - dp_total in
  let outlet_pressure_bar := outlet_pressure_pa / 100000 in
  mk_outlet operating_pressure_bar (py_max0 outlet_pressure_bar)
    (if Rltb 0 inlet_pressure_pa then dp_total / inlet_pressure_pa * 100 else 0).

Definition analyze_pipeline (i : pipeline_input) : exc report :=
  (* Step 2: pipe dimensions *)
  let id_mm := calculate_internal_diameter (pipe_od_mm i) (wall_thickness_mm i) in
  let id_m := id_mm / 1000 in
  let dims := mk_dimensions (pipe_od_mm i) (wall_thickness_mm i) id_mm id_m in
  (* Step 3: flow velocity *)
  let v := calculate_flow_velocity (flow_rate_m3_s i) id_m in
  let re := calculate_reynolds_number v id_m (fluid_viscosity_pa_s i) in
  let regime := flow_regime_classification re in
  let flow := mk_flow v re regime (fluid_density_kg_m3 i) (fluid_viscosity_pa_s i) in
  (* Step 4: friction factor *)
  fr <- calculate_friction_factor re (pipe_roughness_m i) id_m ;;
  let (f, method) := fr in
  let fric := mk_friction f method (pipe_roughness_m i) in
  (* Step 5: pressure drop *)
  let length_m := pipe_length_km i * 1000 in
  let dp_friction :=
    calculate_friction_pressure_drop f length_m id_m v (fluid_density_kg_m3 i) in
  let elevation_change := elevation_end_m i - elevation_start_m i in
  let dp_elevation :=
    calculate_elevation_pressure_drop elevation_change (fluid_density_kg_m3 i) in
  let (dp_total, dp_minor) := calculate_total_pressure_drop dp_friction dp_elevation in
  let dp_bar_per_100km := convert_pressure_drop_to_bar_per_km dp_friction (pipe_length_km i) in
  let pd := mk_pressure_drop dp_friction (dp_friction / 100000)
              dp_elevation (dp_elevation / 100000) dp_minor (dp_minor / 100000)
              dp_total (dp_total / 100000) dp_bar_per_100km in
  (* Step 6: final pressure at outlet *)
  let outp := outlet_section (operating_pressure_bar i) dp_total in
  (* Step 7: pressure containment check *)
  let design_pressure_bar := operating_pressure_bar i * 1.5 in
  let design_pressure_mpa := design_pressure_bar / 10 in
  grade <- PIPE_GRADES_get (pipe_grade_key i) ;;
  let smys_mpa := SMYS grade in
  let hoop := calculate_hoop_stress design_pressure_mpa (pipe_od_mm i) (wall_thickness_mm i) in
  let check := check_pressure_containment hoop smys_mpa 0.72 in
  let pc := mk_pc design_pressure_bar design_pressure_mpa hoop (0.72 * smys_mpa)
              (safe check) (margin_percent check) in
  (* Step 8: velocity checks *)
  let vc := mk_velocity_check v 4.0 (Rleb v 4.0) (Rltb 4.0 v) in
  Ok (mk_report i dims flow fric pd outp pc vc).

(** ** Views of a report *)

(** The quantities that depend on the geometry only. *)
Definition geometry_part (r : report) : R * ext * string * R * pressure_containment :=
  (velocity_ms (r_flow_properties r), reynolds_number (r_flow_properties r),
   flow_regime (r_flow_properties r), friction_factor (r_friction r),
   r_pressure_containment r).

Definition with_length (i : pipeline_input) (l : R) : pipeline_input :=
  mk_input (flow_rate_m3_s i) (pipe_od_mm i) (wall_thickness_mm i) l
    (elevation_start_m i) (elevation_end_m i) (operating_pressure_bar i)
    (fluid_density_kg_m3 i) (fluid_viscosity_pa_s i) (pipe_roughness_m i)
    (pipe_grade_key i).

(** ** The Colebrook-White update as the design describes it

    The design's fixed-point step: substitute the current [f_n] into the
    right-hand side of [1/sqrt f = -2 log10(eps_r/3.7 + 2.51/(Re sqrt f))]
    solved for [f]:
    [f_{n+1} = 1 / (-2 log10(eps_r/3.7 + 2.51/(Re sqrt f_n)))^2].  It is the
    reference the loop body [colebrook_body] is compared with. *)
Definition colebrook_white_update (re relative_roughness f : R) : R :=
  1 / (-2 * (ln (relative_roughness / 3.7 + 2.51 / (re * sqrt f)) / ln 10)) ^ 2.

(** ** Inputs of the worked examples *)

(** The example of [calculations.py]'s [__main__]: a 12-inch crude oil line. *)
Definition case_01 : pipeline_input :=
  mk_input 0.05 323.9 6.4 30 0 100 20 900 0.001 0.000045 "X52".

(** [case_01] with a zero viscosity, which the design treats as inviscid flow. *)
Definition case_01_inviscid : pipeline_input :=
  mk_input 0.05 323.9 6.4 30 0 100 20 900 0 0.000045 "X52".

(** The same line running 1000 m downhill. *)
Definition case_01_downhill : pipeline_input :=
  mk_input 0.05 323.9 6.4 30 1000 0 20 900 0.001 0.000045 "X52".

(** A line at rest, 100 m uphill, with a negative (vacuum) gauge pressure. *)
Definition still_vacuum : pipeline_input :=
  mk_input 0 323.9 6.4 30 0 100 (-1) 900 0.001 0.000045 "X52".

(** ** Reasoning about the decisions *)

Lemma Rltb_true x y : x < y -> Rltb x y = true.
Proof. intro H. unfold Rltb. destruct (Rlt_dec x y); [reflexivity | contradiction]. Qed.

Lemma Rltb_false x y : ~ x < y -> Rltb x y = false.
Proof. intro H. unfold Rltb. destruct (Rlt_dec x y); [contradiction | reflexivity]. Qed.

Lemma Rleb_true x y : x <= y -> Rleb x y = true.
Proof. intro H. unfold Rleb. destruct (Rle_dec x y); [reflexivity | contradiction]. Qed.

Lemma Rleb_false x y : ~ x <= y -> Rleb x y = false.
Proof. intro H. unfold Rleb. destruct (Rle_dec x y); [contradiction | reflexivity]. Qed.

Lemma Reqb_true x y : x = y -> Reqb x y = true.
Proof. intro H. unfold Reqb. destruct (Req_EM_T x y); [reflexivity | contradiction]. Qed.

Lemma Reqb_false x y : x <> y -> Reqb x y = false.
Proof. intro H. unfold Reqb. destruct (Req_EM_T x y); [contradiction | reflexivity]. Qed.

Lemma Rltb_spec x y : Rltb x y = true <-> x < y.
Proof. unfold Rltb. destruct (Rlt_dec x y); split; congruence || tauto. Qed.

Lemma Rleb_spec x y : Rleb x y = true <-> x <= y.
Proof. unfold Rleb. destruct (Rle_dec x y); split; congruence || tauto. Qed.

(** Settle every decision of the goal whose outcome [lra] can decide. *)
Ltac decide_R :=
  repeat match goal with
  | |- context [Rltb ?x ?y] =>
      first [ rewrite (Rltb_true x y) by lra | rewrite (Rltb_false x y) by lra ]
  | |- context [Rleb ?x ?y] =>
      first [ rewrite (Rleb_true x y) by lra | rewrite (Rleb_false x y) by lra ]
  | |- context [Reqb ?x ?y] =>
      first [ rewrite (Reqb_true x y) by lra | rewrite (Reqb_false x y) by lra ]
  end.

(** ** Claims on the friction-factor selector *)

(** C7: in the turbulent smooth-pipe band ([Re >= 2300], relative roughness
    [< 1e-5]) the selector returns the Blasius value [0.316 * Re^(-0.25)]
    directly, without entering the Colebrook refinement loop. *)
Theorem smooth_pipe_blasius (re absolute_roughness diameter : R) :
  0 < diameter -> 2300 <= re -> absolute_roughness / diameter < 0.00001 ->
  calculate_friction_factor (Fin re) absolute_roughness diameter
  = Ok (0.316 * Rpower re (-0.25), "Turbulent").
Proof.
  intros Hd Hre Hrr. unfold calculate_friction_factor.
  decide_R. unfold calculate_friction_factor_turbulent_colebrook.
  rewrite (Rltb_true _ _ Hrr). reflexivity.
Qed.

Lemma smooth_pipe_blasius_witness :
  0 < 0.3111 /\ 2300 <= 100000 /\ 0.000001 / 0.3111 < 0.00001 /\
  calculate_friction_factor (Fin 100000) 0.000001 0.3111
  = Ok (0.316 * Rpower 100000 (-0.25), "Turbulent").
Proof.
  assert (H : 0.000001 / 0.3111 < 0.00001) by (unfold Rdiv; lra).
  split; [lra | split; [lra | split; [exact H |]]].
  apply smooth_pipe_blasius; [lra | lra | exact H].
Defined.

(** C8, as stated: for every [Re < 2300] the selector takes the laminar path
    and returns [64/Re] (or [0] for [Re <= 0]).  It fails at a zero diameter,
    where the selector returns [(0, "Invalid diameter")] before looking at
    [Re]. *)
Lemma laminar_claim_fails_at_zero_diameter :
  calculate_friction_factor (Fin 1000) 0.000045 0 = Ok (0, "Invalid diameter") /\
  ~ (forall re absolute_roughness diameter, re < 2300 ->
       calculate_friction_factor (Fin re) absolute_roughness diameter
       = Ok (if Rleb re 0 then 0 else 64 / re, "Laminar")).
Proof.
  assert (H0 : calculate_friction_factor (Fin 1000) 0.000045 0 = Ok (0, "Invalid diameter")).
  { unfold calculate_friction_factor. decide_R. reflexivity. }
  split; [exact H0 |].
  intro Hall. specialize (Hall 1000 0.000045 0 ltac:(lra)).
  rewrite H0 in Hall. injection Hall as Hf Hm. discriminate Hm.
Qed.

(** C8 (amended): for a positive diameter and [Re < 2300] the selector takes
    the laminar path: it returns [64/Re] labelled ["Laminar"], and the
    sentinel [0] when [Re <= 0]; for a non-positive diameter it returns
    [(0, "Invalid diameter")] whatever the Reynolds number, finite or
    infinite. *)
Theorem laminar_friction_factor (re absolute_roughness diameter : R) :
  (0 < diameter -> re < 2300 ->
   (re <= 0 -> calculate_friction_factor (Fin re) absolute_roughness diameter
               = Ok (0, "Laminar")) /\
   (0 < re -> calculate_friction_factor (Fin re) absolute_roughness diameter
              = Ok (64 / re, "Laminar"))) /\
  (diameter <= 0 ->
   forall reynolds_number : ext,
     calculate_friction_factor reynolds_number absolute_roughness diameter
     = Ok (0, "Invalid diameter")).
Proof.
  split.
  - intros Hd Hre. unfold calculate_friction_factor, calculate_friction_factor_laminar.
    split; intro Hs; decide_R; reflexivity.
  - intros Hd x. unfold calculate_friction_factor. rewrite (Rleb_true _ _ Hd). reflexivity.
Qed.

Lemma laminar_friction_factor_witness :
  0 < 0.3111 /\ 1000 < 2300 /\
  calculate_friction_factor (Fin 1000) 0.000045 0.3111 = Ok (64 / 1000, "Laminar").
Proof.
  split; [lra | split; [lra |]].
  apply (proj1 (laminar_friction_factor 1000 0.000045 0.3111)); lra.
Defined.

(** C2, as stated: the method label is one of ["Laminar"],
    ["Turbulent-Blasius"], ["Turbulent-Colebrook"].  The selector labels both
    turbulent paths ["Turbulent"]: here the Blasius path. *)
Lemma method_label_not_in_three_names :
  calculate_friction_factor (Fin 3000) 0 1 = Ok (blasius (Fin 3000), "Turbulent") /\
  "Turbulent" <> "Laminar" /\ "Turbulent" <> "Turbulent-Blasius" /\
  "Turbulent" <> "Turbulent-Colebrook".
Proof.
  split.
  - unfold calculate_friction_factor, calculate_friction_factor_turbulent_colebrook.
    decide_R. replace (0 / 1) with 0 by field. decide_R. reflexivity.
  - repeat split; discriminate.
Qed.

(** C2 (amended): for a positive diameter, whenever the selector returns, its
    label is ["Laminar"] exactly when [Re] is a finite value below [2300] and
    ["Turbulent"] otherwise; the two turbulent formulas share that label. *)
Theorem friction_method_label (re : ext) (absolute_roughness diameter f : R) (m : string) :
  0 < diameter ->
  calculate_friction_factor re absolute_roughness diameter = Ok (f, m) ->
  (m = "Laminar" /\ (exists r, re = Fin r /\ r < 2300)) \/
  (m = "Turbulent" /\ ~ (exists r, re = Fin r /\ r < 2300)).
Proof.
  intros Hd H. unfold calculate_friction_factor in H.
  rewrite (Rleb_false diameter 0) in H by lra.
  destruct re as [r |].
  - destruct (Rlt_dec r 2300) as [Hlt | Hge].
    + rewrite (Rltb_true _ _ Hlt) in H. injection H as _ Hm. subst m.
      left. split; [reflexivity | exists r; auto].
    + rewrite (Rltb_false _ _ Hge) in H.
      destruct (calculate_friction_factor_turbulent_colebrook (Fin r) _);
        [| discriminate].
      injection H as _ Hm. subst m. right. split; [reflexivity |].
      intros [r' [Hr Hlt]]. injection Hr as <-. contradiction.
    - destruct (calculate_friction_factor_turbulent_colebrook PInf _); [| discriminate].
      injection H as _ Hm. subst m. right. split; [reflexivity |].
      intros [r' [Hr _]]. discriminate.
Qed.

Lemma friction_method_label_witness :
  0 < 0.3111 /\
  calculate_friction_factor (Fin 1000) 0.000045 0.3111 = Ok (64 / 1000, "Laminar") /\
  ((("Laminar" = "Laminar") /\ (exists r, Fin 1000 = Fin r /\ r < 2300)) \/
   (("Laminar" = "Turbulent") /\ ~ (exists r, Fin 1000 = Fin r /\ r < 2300))).
Proof.
  assert (H : calculate_friction_factor (Fin 1000) 0.000045 0.3111 = Ok (64 / 1000, "Laminar")).
  { unfold calculate_friction_factor, calculate_friction_factor_laminar. decide_R. reflexivity. }
  split; [lra | split; [exact H |]].
  exact (friction_method_label (Fin 1000) 0.000045 0.3111 (64 / 1000) "Laminar"
           ltac:(lra) H).
Defined.

(** ** Claims on the friction pressure drop and the containment check *)

(** C3, as stated: with a positive diameter, density and friction factor, a
    longer pipe has a strictly larger friction pressure drop.  At zero
    velocity the drop is [0] for every length. *)
Lemma friction_drop_flat_at_zero_velocity :
  calculate_friction_pressure_drop 0.02 1000 0.3111 0 900
  = calculate_friction_pressure_drop 0.02 2000 0.3111 0 900 /\
  ~ (forall f l1 l2 d v rho, 0 < d -> 0 < rho -> 0 < f -> l1 < l2 ->
       calculate_friction_pressure_drop f l1 d v rho
       < calculate_friction_pressure_drop f l2 d v rho).
Proof.
  assert (H : calculate_friction_pressure_drop 0.02 1000 0.3111 0 900
              = calculate_friction_pressure_drop 0.02 2000 0.3111 0 900).
  { unfold calculate_friction_pressure_drop. decide_R. simpl. field; lra. }
  split; [exact H |].
  intro Hall. specialize (Hall 0.02 1000 2000 0.3111 0 900).
  rewrite H in Hall. apply (Rlt_irrefl _ (Hall ltac:(lra) ltac:(lra) ltac:(lra) ltac:(lra))).
Qed.

(** C3 (amended): with a positive diameter, density and friction factor and a
    non-zero velocity, strictly increasing the length strictly increases the
    friction pressure drop; at zero velocity the drop is [0] for every
    length (whatever the other arguments). *)
Theorem friction_drop_increasing_in_length (f l1 l2 d v rho : R) :
  (0 < d -> 0 < rho -> 0 < f -> v <> 0 -> l1 < l2 ->
   calculate_friction_pressure_drop f l1 d v rho
   < calculate_friction_pressure_drop f l2 d v rho) /\
  (forall length_m, calculate_friction_pressure_drop f length_m d 0 rho = 0).
Proof.
  split.
  2:{ intro l. unfold calculate_friction_pressure_drop.
      destruct (orb (Rleb d 0) (Rleb rho 0)); [reflexivity |]. simpl. unfold Rdiv. ring. }
  intros Hd Hrho Hf Hv Hl. unfold calculate_friction_pressure_drop. decide_R. simpl.
  assert (Hv2 : 0 < v ^ 2) by (simpl; rewrite Rmult_1_r; apply Rsqr_pos_lt; exact Hv).
  assert (Hk : 0 < rho * v ^ 2 / 2) by (apply Rdiv_lt_0_compat; [nra | lra]).
  apply Rmult_lt_compat_r; [exact Hk |].
  apply Rmult_lt_compat_l; [exact Hf |].
  unfold Rdiv. apply Rmult_lt_compat_r; [apply Rinv_0_lt_compat; exact Hd | exact Hl].
Qed.

Lemma friction_drop_increasing_in_length_witness :
  0 < 0.3111 /\ 0 < 900 /\ 0 < 0.02 /\ 0.6578 <> 0 /\ 30000 < 50000 /\
  calculate_friction_pressure_drop 0.02 30000 0.3111 0.6578 900
  < calculate_friction_pressure_drop 0.02 50000 0.3111 0.6578 900.
Proof.
  repeat split; try lra.
  apply (proj1 (friction_drop_increasing_in_length 0.02 30000 50000 0.3111 0.6578 900)); lra.
Defined.

(** C4, as stated: [safe = True] with [margin% = 0] exactly when the hoop
    stress equals the allowable stress.  With a zero allowable stress (SMYS
    [0]) the margin is [0] and a negative hoop stress is safe. *)
Lemma containment_boundary_fails_at_zero_allowable :
  check_pressure_containment (Fin (-1)) 0 0.72 = mk_containment true 0 (Fin (-1)) (0.72 * 0) /\
  Fin (-1) <> Fin (0.72 * 0).
Proof.
  split.
  - unfold check_pressure_containment, py_max0. decide_R. reflexivity.
  - intro H. injection H as H. lra.
Qed.

(** C4 (amended): when the allowable stress [design_factor * SMYS] is
    positive, the check reports [safe = True] with [margin% = 0] exactly when
    the hoop stress equals it; when it is not positive the margin is always
    [0], and a (finite) hoop stress at or below it is reported safe. *)
Theorem containment_boundary (hoop : ext) (smys_mpa design_factor : R) :
  let c := check_pressure_containment hoop smys_mpa design_factor in
  (0 < design_factor * smys_mpa ->
     (safe c = true /\ margin_percent c = 0 <-> hoop = Fin (design_factor * smys_mpa))) /\
  (design_factor * smys_mpa <= 0 ->
     margin_percent c = 0 /\
     (forall h, hoop = Fin h -> h <= design_factor * smys_mpa -> safe c = true)).
Proof.
  cbv zeta. unfold check_pressure_containment; simpl.
  set (a := design_factor * smys_mpa). split.
  - intro Ha. rewrite (Rltb_true _ _ Ha). destruct hoop as [h |].
    + split.
      * intros [Hs Hm]. apply Rleb_spec in Hs. unfold py_max0 in Hm.
        destruct (Rlt_dec 0 ((a - h) / a * 100)) as [Hp | Hp].
        -- rewrite (Rltb_true _ _ Hp) in Hm. lra.
        -- f_equal. apply Rle_antisym; [exact Hs |].
           apply Rnot_lt_le in Hp.
           assert (Hq : (a - h) / a * 100 = (a - h) * (100 / a)) by (field; lra).
           rewrite Hq in Hp.
           assert (0 < 100 / a) by (apply Rdiv_lt_0_compat; lra). nra.
      * intro Hh. injection Hh as ->. split.
        -- apply Rleb_true. lra.
        -- unfold py_max0. replace ((a - a) / a * 100) with 0 by (field; lra).
           decide_R. reflexivity.
    + split; [intros [Hs _]; discriminate | intro Hh; discriminate].
  - intro Ha. rewrite (Rltb_false 0 a) by lra. unfold py_max0. decide_R.
    split; [reflexivity |].
    intros h -> Hh. apply Rleb_true. exact Hh.
Qed.

(** ** Claims on the orchestrator *)

(** C9: two runs whose inputs differ only in [pipe_length_km] agree on
    velocity, Reynolds number, flow regime, friction factor and the whole
    pressure-containment section (and they fail in the same way when one
    fails). *)
Theorem geometry_independent_of_length (i : pipeline_input) (l : R) :
  exc_map geometry_part (analyze_pipeline i)
  = exc_map geometry_part (analyze_pipeline (with_length i l)).
Proof.
  destruct i; unfold analyze_pipeline; simpl.
  destruct (calculate_friction_factor _ _ _) as [[f m] | e]; simpl; [| reflexivity].
  destruct (PIPE_GRADES_get _); reflexivity.
Qed.

Lemma PI_gt_3 : 3 < PI.
Proof. pose proof PI2_3_2. lra. Qed.

(** The outlet section of a returned report is [outlet_section] of the
    operating pressure and the total pressure drop of that report. *)
Lemma analyze_outlet_section (i : pipeline_input) (r : report) :
  analyze_pipeline i = Ok r ->
  r_outlet_pressure r
  = outlet_section (operating_pressure_bar i) (total_pressure_drop_pa (r_pressure_drop r)).
Proof.
  unfold analyze_pipeline.
  destruct (calculate_friction_factor _ _ _) as [[f m] | e]; simpl; [| discriminate].
  destruct (PIPE_GRADES_get _); simpl; [| discriminate].
  intro H. injection H as <-. reflexivity.
Qed.

(** The run of [case_01_downhill]: laminar flow (the source's Reynolds number
    [velocity * diameter / viscosity] is about 205), so [f = 64/Re] and the
    friction drop is linear in the velocity. *)
Lemma case_01_downhill_run :
  exists r, analyze_pipeline case_01_downhill = Ok r /\
    total_pressure_drop_pa (r_pressure_drop r) < 0 /\
    inlet_pressure_bar (r_outlet_pressure r) < outlet_pressure_bar (r_outlet_pressure r) /\
    pressure_loss_percent (r_outlet_pressure r) < 0.
Proof.
  pose proof PI_gt_3 as H3. pose proof PI_4 as H4.
  unfold analyze_pipeline, case_01_downhill; simpl.
  unfold calculate_flow_velocity, calculate_internal_diameter, calculate_reynolds_number.
  replace ((323.9 - 2 * 6.4) / 1000) with 0.3111 by lra.
  decide_R.
  set (v := 0.05 / (PI * (0.3111 / 2) ^ 2)).
  assert (Hv : 0.5 < v < 0.7).
  { unfold v. split.
    - apply Rmult_lt_reg_r with (PI * (0.3111 / 2) ^ 2). nra.
      unfold Rdiv. rewrite Rmult_assoc, Rinv_l by nra. nra.
    - apply Rmult_lt_reg_r with (PI * (0.3111 / 2) ^ 2). nra.
      unfold Rdiv at 1. rewrite Rmult_assoc, Rinv_l by nra. nra. }
  unfold calculate_friction_factor, calculate_friction_factor_laminar.
  decide_R. simpl.
  assert (Hfr : calculate_friction_pressure_drop (64 / (v * 0.3111 / 0.001)) (30 * 1000) 0.3111 v 900
                = 64 * 0.001 * 30000 * 450 / (0.3111 * 0.3111) * v).
  { unfold calculate_friction_pressure_drop. decide_R. simpl. field. lra. }
  rewrite Hfr. clear Hfr.
  eexists. split; [reflexivity |]. simpl.
  unfold calculate_elevation_pressure_drop, G_ACCELERATION, outlet_section, py_max0; simpl.
  rewrite Rabs_right by nra.
  decide_R. repeat split; nra.
Qed.

(** C10: on the downhill line the elevation assist exceeds the friction loss
    plus the 10% minor-loss allowance: the total pressure drop is negative,
    the reported outlet pressure is above the inlet pressure and the
    pressure-loss percentage is negative. *)
Theorem downhill_outlet_above_inlet :
  exists r, analyze_pipeline case_01_downhill = Ok r /\
    total_pressure_drop_pa (r_pressure_drop r) < 0 /\
    inlet_pressure_bar (r_outlet_pressure r) < outlet_pressure_bar (r_outlet_pressure r) /\
    pressure_loss_percent (r_outlet_pressure r) < 0.
Proof. exact case_01_downhill_run. Qed.

(** C6, as stated: the loss percentage is [total / inlet * 100] from the
    true inlet value, with [0] reported only for a zero inlet pressure.  For a
    negative inlet pressure the source also reports [0]. *)
Lemma loss_percent_zero_for_negative_inlet :
  exists r, analyze_pipeline still_vacuum = Ok r /\
    operating_pressure_bar still_vacuum <> 0 /\
    pressure_loss_percent (r_outlet_pressure r) = 0 /\
    total_pressure_drop_pa (r_pressure_drop r)
      / (operating_pressure_bar still_vacuum * 100000) * 100 <> 0.
Proof.
  pose proof PI_gt_3 as H3.
  unfold analyze_pipeline, still_vacuum; simpl.
  unfold calculate_flow_velocity, calculate_internal_diameter, calculate_reynolds_number.
  replace ((323.9 - 2 * 6.4) / 1000) with 0.3111 by lra.
  decide_R.
  assert (E : 0 / (PI * (0.3111 / 2) ^ 2) = 0) by (field; nra).
  rewrite E. rewrite (Rmult_0_l 0.3111). unfold Rdiv at 1. rewrite Rmult_0_l.
  unfold calculate_friction_factor, calculate_friction_factor_laminar.
  decide_R. simpl.
  eexists. split; [reflexivity |]. simpl.
  unfold calculate_friction_pressure_drop, calculate_elevation_pressure_drop,
    G_ACCELERATION, outlet_section; simpl.
  decide_R. simpl. rewrite !Rmult_0_l, Rabs_R0.
  split; [lra | split; [reflexivity |]].
  unfold Rdiv. intro H. nra.
Qed.

(** C6 (amended): the reported outlet pressure is [inlet - total_loss]
    (in bar), clamped at [0]; the inlet pressure is reported unchanged; the
    loss percentage is [total_loss / inlet * 100] from the unclamped inlet
    value when the inlet pressure is positive, and [0] when it is zero or
    negative. *)
Theorem outlet_pressure_clamp (i : pipeline_input) (r : report) :
  analyze_pipeline i = Ok r ->
  let op := operating_pressure_bar i in
  let t := total_pressure_drop_pa (r_pressure_drop r) in
  let o := r_outlet_pressure r in
  inlet_pressure_bar o = op /\
  (0 < op - t / 100000 -> outlet_pressure_bar o = op - t / 100000) /\
  (op - t / 100000 <= 0 -> outlet_pressure_bar o = 0) /\
  (0 < op -> pressure_loss_percent o = t / (op * 100000) * 100) /\
  (op <= 0 -> pressure_loss_percent o = 0).
Proof.
  intro H. apply analyze_outlet_section in H. cbv zeta. rewrite H.
  set (op := operating_pressure_bar i). set (t := total_pressure_drop_pa (r_pressure_drop r)).
  unfold outlet_section, py_max0; simpl.
  replace ((op * 100000 - t) / 100000) with (op - t / 100000) by field.
  repeat split; intro Hc; decide_R; reflexivity.
Qed.

Lemma outlet_pressure_clamp_witness :
  exists r, analyze_pipeline case_01_downhill = Ok r /\
    inlet_pressure_bar (r_outlet_pressure r) = 20.
Proof.
  destruct case_01_downhill_run as [r [Hr _]].
  exists r. split; [exact Hr |].
  exact (proj1 (outlet_pressure_clamp case_01_downhill r Hr)).
Defined.

(** ** The Colebrook solver *)

Lemma py_div_pos (x y z : R) : 0 < x -> py_div x (y ^ 2) = Ok z -> 0 < z.
Proof.
  intros Hx H. unfold py_div in H. unfold Reqb in H.
  destruct (Req_EM_T (y ^ 2) 0) as [E | E]; [discriminate |].
  injection H as <-. apply Rdiv_lt_0_compat; [exact Hx |].
  assert (0 <= y ^ 2) by (simpl; nra). lra.
Qed.

Lemma colebrook_seed_pos (re : ext) (rr f : R) : colebrook_seed re rr = Ok f -> 0 < f.
Proof.
  unfold colebrook_seed, py_log10.
  destruct (Rleb _ 0); cbn [bind]; [discriminate |].
  apply py_div_pos. lra.
Qed.

Lemma colebrook_body_next_pos (re : ext) (rr f g : R) :
  colebrook_body re rr f = Ok (Next g) -> 0 < g.
Proof.
  unfold colebrook_body, py_log10, py_sqrt.
  destruct (Rleb (rr / 3.7) 0); cbn [bind]; [discriminate |].
  destruct (Rltb f 0); cbn [bind]; [discriminate |].
  destruct re as [r |].
  - destruct (Reqb _ 0); [discriminate |].
    destruct (Rleb _ 0); cbn [bind]; [discriminate |].
    destruct (py_div 1.0 _) eqn:E; cbn [bind]; [| discriminate].
    intro H. injection H as <-. exact (py_div_pos 1.0 _ _ ltac:(lra) E).
  - destruct (Reqb _ 0); [discriminate |].
    rewrite (Rleb_true 0 0) by lra. discriminate.
Qed.

(** The refinement loop started from a positive guess never meets the
    [inf * 0.0] case: every guess it computes is positive. *)
Lemma colebrook_loop_no_nan (n : nat) (re : ext) (rr f : R) :
  0 < f -> colebrook_loop n re rr f <> Raise NanValue.
Proof.
  revert f. induction n as [| n IH]; intros f Hf; cbn [colebrook_loop bind]; [discriminate |].
  destruct (colebrook_body re rr f) as [[| g] | e] eqn:E; cbn [bind].
  - discriminate.
  - destruct (Rltb _ 1e-6); [discriminate |].
    apply IH. exact (colebrook_body_next_pos _ _ _ _ E).
  - unfold colebrook_body, py_log10, py_sqrt in E.
    destruct (Rleb (rr / 3.7) 0); cbn [bind] in E; [injection E as <-; discriminate |].
    rewrite (Rltb_false f 0) in E by lra. cbn [bind] in E.
    destruct re as [r |].
    + destruct (Reqb _ 0); [discriminate |].
      destruct (Rleb _ 0); cbn [bind] in E; [injection E as <-; discriminate |].
      unfold py_div in E. destruct (Reqb _ 0); [injection E as <-; discriminate | discriminate].
    + rewrite (Reqb_false (sqrt f) 0) in E by (pose proof (sqrt_lt_R0 f Hf); lra).
      rewrite (Rleb_true 0 0) in E by lra. injection E as <-. discriminate.
Qed.

(** With an infinite Reynolds number and a relative roughness in
    [[1e-5, 3.7)], the solver raises: the seed is finite and positive, and the
    first pass takes [math.log10(2.51 / inf)], that is [math.log10(0.0)]. *)
Lemma colebrook_inf_raises (rr : R) :
  0.00001 <= rr < 3.7 ->
  calculate_friction_factor_turbulent_colebrook PInf rr = Raise ValueError.
Proof.
  intros [Hlo Hhi]. unfold calculate_friction_factor_turbulent_colebrook.
  rewrite (Rltb_false rr 0.00001) by lra.
  unfold colebrook_seed, swamee_jain_term, py_log10.
  rewrite Rplus_0_r. rewrite (Rleb_false (rr / 3.7) 0) by lra. cbn [bind].
  assert (Hln : ln (rr / 3.7) < 0).
  { rewrite <- ln_1. apply ln_increasing; lra. }
  assert (Hl10 : 0 < ln 10).
  { rewrite <- ln_1. apply ln_increasing; lra. }
  set (L := ln (rr / 3.7) / ln 10).
  assert (HL : L < 0) by (unfold L, Rdiv; apply Rmult_neg_pos; [lra | apply Rinv_0_lt_compat; lra]).
  unfold py_div. rewrite (Reqb_false (L ^ 2) 0) by (simpl; nra). cbn [bind].
  assert (Hs : 0 < 0.25 / L ^ 2) by (apply Rdiv_lt_0_compat; [lra | simpl; nra]).
  cbn [colebrook_loop bind]. unfold colebrook_body, py_log10, py_sqrt.
  rewrite (Rleb_false (rr / 3.7) 0) by lra.
  rewrite (Rltb_false (0.25 / L ^ 2) 0) by lra. cbn [bind].
  rewrite (Reqb_false (sqrt (0.25 / L ^ 2)) 0) by (pose proof (sqrt_lt_R0 _ Hs); lra).
  rewrite (Rleb_true 0 0) by lra. reflexivity.
Qed.

(** The run of [case_01_inviscid] stops at the friction factor. *)
Lemma inviscid_run_raises (k : string) :
  analyze_pipeline (mk_input 0.05 323.9 6.4 30 0 100 20 900 0 0.000045 k) = Raise ValueError.
Proof.
  unfold analyze_pipeline; cbn [calculate_internal_diameter flow_rate_m3_s pipe_od_mm
    wall_thickness_mm fluid_viscosity_pa_s pipe_roughness_m].
  unfold calculate_internal_diameter, calculate_reynolds_number.
  rewrite (Reqb_true 0 0) by reflexivity.
  unfold calculate_friction_factor.
  rewrite (Rleb_false ((323.9 - 2 * 6.4) / 1000) 0) by lra.
  rewrite colebrook_inf_raises by (split; unfold Rdiv; lra).
  reflexivity.
Qed.

Lemma ln_lt_0 (x : R) : 0 < x < 1 -> ln x < 0.
Proof. intros [H0 H1]. rewrite <- ln_1. apply ln_increasing; lra. Qed.

Lemma ln_10_pos : 0 < ln 10.
Proof. rewrite <- ln_1. apply ln_increasing; lra. Qed.

(** The loop body's update [1 / (2 log10 a + 2 log10 b)^2] (a sum of
    logarithms) differs from the Colebrook-White update
    [1 / (-2 log10 (a + b))^2] (the logarithm of a sum) whenever both terms
    lie in [(0, 1/2)]. *)
Lemma sum_of_logs_update_differs (a b : R) :
  0 < a < 1/2 -> 0 < b < 1/2 ->
  1.0 / (2.0 * (ln a / ln 10) + 2.0 * (ln b / ln 10)) ^ 2
  <> 1 / (-2 * (ln (a + b) / ln 10)) ^ 2.
Proof.
  intros Ha Hb. replace 2.0 with 2 by lra. replace 1.0 with 1 by lra.
  intro Heq. pose proof ln_10_pos as Hc.
  assert (HA : ln a < 0) by (apply ln_lt_0; lra).
  assert (HB : ln b < 0) by (apply ln_lt_0; lra).
  assert (HS : ln (a + b) < 0) by (apply ln_lt_0; lra).
  set (X := 2 * (ln a / ln 10) + 2 * (ln b / ln 10)) in Heq.
  set (Y := -2 * (ln (a + b) / ln 10)) in Heq.
  assert (HX : X < 0).
  { unfold X. assert (ln a / ln 10 < 0) by (apply Rdiv_neg_pos; lra).
    assert (ln b / ln 10 < 0) by (apply Rdiv_neg_pos; lra). lra. }
  assert (HY : 0 < Y).
  { unfold Y. assert (ln (a + b) / ln 10 < 0) by (apply Rdiv_neg_pos; lra). lra. }
  assert (HXY : X = - Y).
  { assert (H2 : X ^ 2 = Y ^ 2).
    { unfold Rdiv in Heq. rewrite !Rmult_1_l in Heq.
      apply Rinv_eq_reg in Heq. exact Heq. }
    simpl in H2. nra. }
  unfold X, Y in HXY.
  assert (Hln : ln a + ln b = ln (a + b)).
  { apply Rmult_eq_reg_r with (2 / ln 10); [| apply Rgt_not_eq, Rdiv_lt_0_compat; lra].
    replace ((ln a + ln b) * (2 / ln 10)) with (2 * (ln a / ln 10) + 2 * (ln b / ln 10))
      by (field; lra).
    rewrite HXY. field. lra. }
  rewrite <- ln_mult in Hln by lra.
  apply ln_inv in Hln; [nra | nra | lra].
Qed.

Lemma Rpower_1e5_09_gt_300 : 300 < Rpower 100000 0.9.
Proof.
  apply Rlt_trans with (Rpower 100000 (/ 2)).
  - rewrite Rpower_sqrt by lra.
    pose proof (sqrt_sqrt 100000 ltac:(lra)) as Hs. pose proof (sqrt_pos 100000).
    nra.
  - apply Rpower_lt; lra.
Qed.

(** The Swamee-Jain seed at [Re = 1e5], [eps_r = 1e-3] is above [1/64]. *)
Lemma seed_1e5_1e3 :
  exists f0, colebrook_seed (Fin 100000) 0.001 = Ok f0 /\ 1 / 64 < f0.
Proof.
  pose proof Rpower_1e5_09_gt_300 as HP. pose proof ln_10_pos as Hc.
  unfold colebrook_seed, swamee_jain_term, py_log10.
  set (x := 0.001 / 3.7 + 5.74 / Rpower 100000 0.9).
  assert (Ht : 0 < 5.74 / Rpower 100000 0.9 < 0.02).
  { split; [apply Rdiv_lt_0_compat; lra |].
    apply Rmult_lt_reg_r with (Rpower 100000 0.9); [lra |].
    unfold Rdiv. rewrite Rmult_assoc, Rinv_l by lra. lra. }
  assert (Hx : 0.0001 < x < 1) by (unfold x; unfold Rdiv at 1; lra).
  rewrite (Rleb_false x 0) by lra. cbn [bind].
  assert (HL0 : ln x < 0) by (apply ln_lt_0; lra).
  assert (HL4 : - (4 * ln 10) < ln x).
  { replace (- (4 * ln 10)) with (ln (/ 10 ^ 4)).
    - apply ln_increasing; [apply Rinv_0_lt_compat; simpl; lra |].
      replace (/ 10 ^ 4) with 0.0001 by (simpl; lra). lra.
    - rewrite ln_Rinv by (simpl; lra). rewrite ln_pow by lra. simpl. ring. }
  set (L := ln x / ln 10).
  assert (HL : -4 < L < 0).
  { unfold L. split.
    - apply Rmult_lt_reg_r with (ln 10); [lra |].
      unfold Rdiv. rewrite Rmult_assoc, Rinv_l by lra. lra.
    - apply Rdiv_neg_pos; lra. }
  unfold py_div. rewrite (Reqb_false (L ^ 2) 0) by (simpl; nra).
  eexists. split; [reflexivity |].
  replace 0.25 with (1 / 4) by lra.
  apply Rmult_lt_reg_r with (L ^ 2); [simpl; nra |].
  unfold Rdiv. rewrite (Rmult_assoc (1 * / 4)), Rinv_l by (simpl; nra). simpl. nra.
Qed.

(** C1: in the rough-pipe path the loop body does not compute the
    Colebrook-White update.  At [Re = 1e5], [eps_r = 1e-3] (rough band,
    [eps_r >= 1e-5]) the first pass from the Swamee-Jain seed [f0] yields a
    value [f1] that differs from [1/(-2 log10(eps_r/3.7 + 2.51/(Re sqrt f0)))^2]:
    the body adds [2 log10(eps_r/3.7)] and [2 log10(2.51/(Re sqrt f0))], the
    logarithm of a product, where the equation has the logarithm of a sum. *)
Theorem colebrook_body_not_colebrook_white :
  exists f0 f1,
    colebrook_seed (Fin 100000) 0.001 = Ok f0 /\
    colebrook_body (Fin 100000) 0.001 f0 = Ok (Next f1) /\
    f1 <> colebrook_white_update 100000 0.001 f0.
Proof.
  destruct seed_1e5_1e3 as [f0 [Hseed Hf0]].
  pose proof ln_10_pos as Hc.
  assert (Hs : 1 / 8 < sqrt f0).
  { pose proof (sqrt_sqrt f0 ltac:(lra)). pose proof (sqrt_pos f0). nra. }
  set (a := 0.001 / 3.7). set (b := 2.51 / (100000 * sqrt f0)).
  assert (Ha : 0 < a < 1 / 2) by (unfold a, Rdiv; lra).
  assert (Hb : 0 < b < 1 / 2).
  { unfold b. split; [apply Rdiv_lt_0_compat; lra |].
    apply Rmult_lt_reg_r with (100000 * sqrt f0); [lra |].
    unfold Rdiv. rewrite Rmult_assoc, Rinv_l by lra. lra. }
  assert (HA : ln a / ln 10 < 0) by (apply Rdiv_neg_pos; [apply ln_lt_0 |]; lra).
  assert (HB : ln b / ln 10 < 0) by (apply Rdiv_neg_pos; [apply ln_lt_0 |]; lra).
  exists f0, (1.0 / (2.0 * (ln a / ln 10) + 2.0 * (ln b / ln 10)) ^ 2).
  split; [exact Hseed | split].
  - unfold colebrook_body, py_log10, py_sqrt. fold a.
    rewrite (Rleb_false a 0) by lra. rewrite (Rltb_false f0 0) by lra. cbn [bind].
    rewrite (Reqb_false (100000 * sqrt f0) 0) by lra. fold b.
    rewrite (Rleb_false b 0) by lra. cbn [bind].
    unfold py_div. rewrite Reqb_false; [reflexivity |].
    apply pow_nonzero. lra.
  - unfold colebrook_white_update. fold a. fold b.
    apply sum_of_logs_update_differs; assumption.
Qed.


(** C5: the orchestrator does not return a complete report for every grade
    present in the table.  With the worked example's inputs and a zero
    viscosity (valid per the design: inviscid flow, infinite Reynolds
    number) it raises [ValueError] from [math.log10(0.0)] in the Colebrook
    loop; with an unknown grade key the same input raises that
    [ValueError] rather than a lookup failure. *)
Theorem inviscid_case_raises :
  analyze_pipeline case_01_inviscid = Raise ValueError /\
  analyze_pipeline (mk_input 0.05 323.9 6.4 30 0 100 20 900 0 0.000045 "X99")
  = Raise ValueError.
Proof. split; apply inviscid_run_raises. Qed.

(** * Further properties of the calculation engine *)

(** ** Helpers *)

Lemma colebrook_loop_pos (n : nat) (re : ext) (rr f g : R) :
  0 < f -> colebrook_loop n re rr f = Ok g -> 0 < g.
Proof.
  revert f. induction n as [| n IH]; intros f Hf; cbn [colebrook_loop bind].
  - intro H. injection H as <-. exact Hf.
  - destruct (colebrook_body re rr f) as [[| h] | e] eqn:E; cbn [bind].
    + intro H. injection H as <-. exact Hf.
    + destruct (Rltb _ 1e-6); [intro H; injection H as <-; exact Hf |].
      apply IH. exact (colebrook_body_next_pos _ _ _ _ E).
    + discriminate.
Qed.

Lemma blasius_fin_pos (re : R) : 0 < blasius (Fin re).
Proof. unfold blasius, Rpower. pose proof (exp_pos (-0.25 * ln re)). lra. Qed.

Lemma colebrook_nonneg (re : ext) (rr f : R) :
  calculate_friction_factor_turbulent_colebrook re rr = Ok f -> 0 <= f.
Proof.
  unfold calculate_friction_factor_turbulent_colebrook.
  destruct (Rltb rr 0.00001).
  - intro H. injection H as <-. destruct re as [r |].
    + left. apply blasius_fin_pos.
    + unfold blasius. lra.
  - destruct (colebrook_seed re rr) as [f0 | e] eqn:E; cbn [bind]; [| discriminate].
    intro H. left. exact (colebrook_loop_pos _ _ _ _ _ (colebrook_seed_pos _ _ _ E) H).
Qed.

Lemma friction_factor_nonneg_aux (re : ext) (rough d f : R) (m : string) :
  calculate_friction_factor re rough d = Ok (f, m) -> 0 <= f.
Proof.
  unfold calculate_friction_factor.
  destruct (Rleb d 0); [intro H; injection H as <- _; lra |].
  destruct re as [r |].
  - destruct (Rltb r 2300).
    + intro H. injection H as <- _. unfold calculate_friction_factor_laminar, Rleb.
      destruct (Rle_dec r 0); [lra |]. left. apply Rdiv_lt_0_compat; lra.
    + destruct (calculate_friction_factor_turbulent_colebrook (Fin r) _) eqn:E; cbn [bind];
        [| discriminate].
      intro H. injection H as <- _. exact (colebrook_nonneg _ _ _ E).
  - destruct (calculate_friction_factor_turbulent_colebrook PInf _) eqn:E; cbn [bind];
      [| discriminate].
    intro H. injection H as <- _. exact (colebrook_nonneg _ _ _ E).
Qed.

(** ** Friction factor *)

(** X1: every friction factor the selector returns is non-negative: [0] for
    a non-positive diameter, a non-positive Reynolds number or an infinite
    Reynolds number on a smooth pipe, a positive value otherwise. *)
Theorem friction_factor_nonneg (re : ext) (absolute_roughness diameter f : R) (m : string) :
  calculate_friction_factor re absolute_roughness diameter = Ok (f, m) -> 0 <= f.
Proof. apply friction_factor_nonneg_aux. Qed.

Lemma friction_factor_nonneg_witness :
  calculate_friction_factor (Fin 1000) 0.000045 0.3111 = Ok (64 / 1000, "Laminar") /\
  0 <= 64 / 1000.
Proof.
  assert (H : calculate_friction_factor (Fin 1000) 0.000045 0.3111 = Ok (64 / 1000, "Laminar")).
  { unfold calculate_friction_factor, calculate_friction_factor_laminar. decide_R. reflexivity. }
  split; [exact H | exact (friction_factor_nonneg _ _ _ _ _ H)].
Defined.

(** X2: with a positive diameter and a finite positive Reynolds number, every
    friction factor the selector returns is strictly positive. *)
Theorem friction_factor_pos (re absolute_roughness diameter f : R) (m : string) :
  0 < diameter -> 0 < re ->
  calculate_friction_factor (Fin re) absolute_roughness diameter = Ok (f, m) -> 0 < f.
Proof.
  intros Hd Hre. unfold calculate_friction_factor. rewrite (Rleb_false diameter 0) by lra.
  destruct (Rltb re 2300).
  - intro H. injection H as <- _. unfold calculate_friction_factor_laminar.
    rewrite (Rleb_false re 0) by lra. apply Rdiv_lt_0_compat; lra.
  - unfold calculate_friction_factor_turbulent_colebrook.
    destruct (Rltb (absolute_roughness / diameter) 0.00001).
    + intro H. injection H as <- _. apply blasius_fin_pos.
    + destruct (colebrook_seed (Fin re) _) as [f0 | e] eqn:E; cbn [bind]; [| discriminate].
      destruct (colebrook_loop 5 _ _ f0) as [g | e] eqn:L; cbn [bind]; [| discriminate].
      intro H. injection H as <- _.
      exact (colebrook_loop_pos _ _ _ _ _ (colebrook_seed_pos _ _ _ E) L).
Qed.

Lemma friction_factor_pos_witness :
  0 < 0.3111 /\ 0 < 1000 /\
  calculate_friction_factor (Fin 1000) 0.000045 0.3111 = Ok (64 / 1000, "Laminar") /\
  0 < 64 / 1000.
Proof.
  assert (H : calculate_friction_factor (Fin 1000) 0.000045 0.3111 = Ok (64 / 1000, "Laminar")).
  { unfold calculate_friction_factor, calculate_friction_factor_laminar. decide_R. reflexivity. }
  split; [lra | split; [lra | split; [exact H |]]].
  exact (friction_factor_pos 1000 0.000045 0.3111 _ _ ltac:(lra) ltac:(lra) H).
Defined.

(** X4: the selector's label agrees with [flow_regime_classification] on
    laminar flow, and a flow classified as transitional
    ([2300 <= Re < 4000]) is computed with the turbulent correlations and
    labelled ["Turbulent"]. *)
Theorem regime_label_consistency (re : ext) (absolute_roughness diameter f : R) (m : string) :
  0 < diameter ->
  calculate_friction_factor re absolute_roughness diameter = Ok (f, m) ->
  (m = "Laminar" <-> flow_regime_classification re = "Laminar (smooth, organized)") /\
  (flow_regime_classification re = "Transitional (unstable)" -> m = "Turbulent").
Proof.
  intros Hd. unfold calculate_friction_factor, flow_regime_classification, ext_ltb.
  rewrite (Rleb_false diameter 0) by lra.
  destruct re as [r |].
  - destruct (Rltb r 2300).
    + intro H. injection H as _ <-. split; [split; reflexivity | discriminate].
    + destruct (calculate_friction_factor_turbulent_colebrook (Fin r) _); cbn [bind];
        [| discriminate].
      intro H. injection H as _ <-.
      split; [split; [discriminate | destruct (Rltb r 4000); discriminate] | reflexivity].
  - destruct (calculate_friction_factor_turbulent_colebrook PInf _); cbn [bind];
      [| discriminate].
    intro H. injection H as _ <-. split; [split; discriminate | reflexivity].
Qed.

Lemma regime_label_consistency_witness :
  0 < 1 /\
  calculate_friction_factor (Fin 3000) 0 1 = Ok (blasius (Fin 3000), "Turbulent") /\
  flow_regime_classification (Fin 3000) = "Transitional (unstable)" /\
  "Turbulent" = "Turbulent".
Proof.
  assert (H : calculate_friction_factor (Fin 3000) 0 1 = Ok (blasius (Fin 3000), "Turbulent")).
  { unfold calculate_friction_factor, calculate_friction_factor_turbulent_colebrook.
    decide_R. replace (0 / 1) with 0 by field. decide_R. reflexivity. }
  assert (Hc : flow_regime_classification (Fin 3000) = "Transitional (unstable)").
  { unfold flow_regime_classification, ext_ltb. decide_R. reflexivity. }
  split; [lra | split; [exact H | split; [exact Hc |]]].
  exact (proj2 (regime_label_consistency (Fin 3000) 0 1 _ _ ltac:(lra) H) Hc).
Defined.

(** ** Wall thickness and containment *)

(** X10: the reported safety margin is never negative, and for a
    non-negative hoop stress it is at most 100%. *)
Theorem containment_margin_bounds (h smys_mpa design_factor : R) :
  0 <= h ->
  0 <= margin_percent (check_pressure_containment (Fin h) smys_mpa design_factor) <= 100.
Proof.
  intro Hh. unfold check_pressure_containment, py_max0. cbn [margin_percent].
  destruct (Rlt_dec 0 (design_factor * smys_mpa)) as [Ha | Ha].
  - rewrite (Rltb_true _ _ Ha).
    destruct (Rlt_dec 0 ((design_factor * smys_mpa - h) / (design_factor * smys_mpa) * 100))
      as [Hp | Hp].
    + rewrite (Rltb_true _ _ Hp). split; [lra |].
      set (a := design_factor * smys_mpa) in *.
      assert (E : (a - h) / a * 100 = 100 - h * (100 / a)) by (field; lra).
      rewrite E.
      assert (0 < 100 / a) by (apply Rdiv_lt_0_compat; lra). nra.
    + rewrite (Rltb_false _ _ Hp). lra.
  - rewrite (Rltb_false _ _ Ha). decide_R. lra.
Qed.

Lemma containment_margin_bounds_witness :
  0 <= 75.9 /\
  0 <= margin_percent (check_pressure_containment (Fin 75.9) 359 0.72) <= 100.
Proof. split; [lra | apply containment_margin_bounds; lra]. Defined.

(** ** Pressure-drop section of the report *)

Lemma bar_per_100km_of_friction_drop (f l d v rho : R) :
  0 < l ->
  convert_pressure_drop_to_bar_per_km (calculate_friction_pressure_drop f (l * 1000) d v rho) l
  = if orb (Rleb d 0) (Rleb rho 0) then 0 else f / d * (rho * v ^ 2 / 2).
Proof.
  intro Hl. unfold convert_pressure_drop_to_bar_per_km, calculate_friction_pressure_drop.
  rewrite (Rleb_false l 0) by lra.
  destruct (Rleb d 0) eqn:Ed; cbn [orb]; [unfold Rdiv; ring |].
  destruct (Rleb rho 0); cbn [orb]; [unfold Rdiv; ring |].
  assert (d <> 0) by (intro; subst; rewrite (Rleb_true 0 0) in Ed by lra; discriminate).
  field. lra.
Qed.

(** X7: for positive pipe lengths the reported [bar_per_100km] gradient does
    not depend on the length: two runs whose inputs differ only in
    [pipe_length_km] report the same gradient (or fail in the same way). *)
Theorem bar_per_100km_length_independent (i : pipeline_input) (l1 l2 : R) :
  0 < l1 -> 0 < l2 ->
  exc_map (fun r => bar_per_100km (r_pressure_drop r)) (analyze_pipeline (with_length i l1))
  = exc_map (fun r => bar_per_100km (r_pressure_drop r)) (analyze_pipeline (with_length i l2)).
Proof.
  intros H1 H2. destruct i; unfold analyze_pipeline, with_length; cbn [pipe_length_km
    flow_rate_m3_s pipe_od_mm wall_thickness_mm elevation_start_m elevation_end_m
    operating_pressure_bar fluid_density_kg_m3 fluid_viscosity_pa_s pipe_roughness_m
    pipe_grade_key].
  destruct (calculate_friction_factor _ _ _) as [[f m] | e]; cbn [bind]; [| reflexivity].
  destruct (PIPE_GRADES_get _); cbn [bind]; [| reflexivity].
  cbn [exc_map r_pressure_drop bar_per_100km calculate_total_pressure_drop].
  rewrite !bar_per_100km_of_friction_drop by assumption. reflexivity.
Qed.

Lemma bar_per_100km_length_independent_witness :
  0 < 30 /\ 0 < 60 /\
  exc_map (fun r => bar_per_100km (r_pressure_drop r)) (analyze_pipeline (with_length case_01 30))
  = exc_map (fun r => bar_per_100km (r_pressure_drop r)) (analyze_pipeline (with_length case_01 60)).
Proof.
  split; [lra | split; [lra |]].
  apply bar_per_100km_length_independent; lra.
Defined.

Lemma friction_drop_mono_length (f l1 l2 d v rho : R) :
  0 <= f -> l1 <= l2 ->
  calculate_friction_pressure_drop f (l1 * 1000) d v rho
  <= calculate_friction_pressure_drop f (l2 * 1000) d v rho.
Proof.
  intros Hf Hl. unfold calculate_friction_pressure_drop.
  destruct (Rleb d 0) eqn:Ed; cbn [orb]; [lra |].
  destruct (Rleb rho 0) eqn:Er; cbn [orb]; [lra |].
  assert (~ d <= 0) by (intro Hc; rewrite (Rleb_true _ _ Hc) in Ed; discriminate).
  assert (~ rho <= 0) by (intro Hc; rewrite (Rleb_true _ _ Hc) in Er; discriminate).
  assert (Hk : 0 <= rho * v ^ 2 / 2) by (apply Rmult_le_pos; [apply Rmult_le_pos; [lra | apply pow2_ge_0] | lra]).
  apply Rmult_le_compat_r; [exact Hk |]. apply Rmult_le_compat_l; [exact Hf |].
  unfold Rdiv. apply Rmult_le_compat_r; [left; apply Rinv_0_lt_compat; lra | lra].
Qed.

Lemma total_drop_mono (a1 a2 e : R) :
  a1 <= a2 ->
  fst (calculate_total_pressure_drop a1 e) <= fst (calculate_total_pressure_drop a2 e).
Proof.
  intro H. unfold calculate_total_pressure_drop. cbn [fst].
  unfold Rabs. destruct (Rcase_abs a1), (Rcase_abs a2); lra.
Qed.

Lemma outlet_bar_antitone (op t1 t2 : R) :
  t1 <= t2 ->
  outlet_pressure_bar (outlet_section op t2) <= outlet_pressure_bar (outlet_section op t1).
Proof.
  intro H. unfold outlet_section, py_max0. cbn [outlet_pressure_bar].
  assert (E : (op * 100000 - t2) / 100000 <= (op * 100000 - t1) / 100000).
  { unfold Rdiv. apply Rmult_le_compat_r; [left; apply Rinv_0_lt_compat; lra | lra]. }
  unfold Rltb.
  destruct (Rlt_dec 0 ((op * 100000 - t2) / 100000));
  destruct (Rlt_dec 0 ((op * 100000 - t1) / 100000)); lra.
Qed.

(** X8: lengthening the pipeline never lowers the total pressure drop, and
    never raises the reported outlet pressure, when both runs return a
    report (friction factors are non-negative, and [dp + |dp| * 0.10] grows
    with [dp]). *)
Theorem total_drop_monotone_in_length (i : pipeline_input) (l1 l2 : R) (r1 r2 : report) :
  l1 <= l2 ->
  analyze_pipeline (with_length i l1) = Ok r1 ->
  analyze_pipeline (with_length i l2) = Ok r2 ->
  total_pressure_drop_pa (r_pressure_drop r1) <= total_pressure_drop_pa (r_pressure_drop r2) /\
  outlet_pressure_bar (r_outlet_pressure r2) <= outlet_pressure_bar (r_outlet_pressure r1).
Proof.
  intros Hl. destruct i; unfold analyze_pipeline, with_length; cbn [pipe_length_km
    flow_rate_m3_s pipe_od_mm wall_thickness_mm elevation_start_m elevation_end_m
    operating_pressure_bar fluid_density_kg_m3 fluid_viscosity_pa_s pipe_roughness_m
    pipe_grade_key].
  destruct (calculate_friction_factor _ _ _) as [[f m] | e] eqn:Ef; cbn [bind];
    [| discriminate].
  destruct (PIPE_GRADES_get _); cbn [bind]; [| discriminate].
  intros H1 H2. injection H1 as <-. injection H2 as <-.
  pose proof (friction_factor_nonneg_aux _ _ _ _ _ Ef) as Hf.
  cbn [r_pressure_drop r_outlet_pressure total_pressure_drop_pa].
  match goal with
  | |- context [calculate_friction_pressure_drop f (l1 * 1000) ?d ?v ?rho] =>
      pose proof (friction_drop_mono_length f l1 l2 d v rho Hf Hl) as Hm
  end.
  match goal with
  | |- context [calculate_elevation_pressure_drop ?g ?rho] =>
      pose proof (total_drop_mono _ _ (calculate_elevation_pressure_drop g rho) Hm) as Ht
  end.
  unfold calculate_total_pressure_drop, fst in Ht.
  split; [exact Ht | apply outlet_bar_antitone; exact Ht].
Qed.

Lemma analyze_ok_other_length (i : pipeline_input) (l : R) (r : report) :
  analyze_pipeline i = Ok r -> exists r', analyze_pipeline (with_length i l) = Ok r'.
Proof.
  destruct i; unfold analyze_pipeline, with_length; cbn [pipe_length_km
    flow_rate_m3_s pipe_od_mm wall_thickness_mm elevation_start_m elevation_end_m
    operating_pressure_bar fluid_density_kg_m3 fluid_viscosity_pa_s pipe_roughness_m
    pipe_grade_key].
  destruct (calculate_friction_factor _ _ _) as [[f m] | e]; cbn [bind]; [| discriminate].
  destruct (PIPE_GRADES_get _); cbn [bind]; [| discriminate].
  intros _. eexists. reflexivity.
Qed.

Lemma total_drop_monotone_in_length_witness :
  exists r1 r2,
    30 <= 60 /\
    analyze_pipeline (with_length case_01_downhill 30) = Ok r1 /\
    analyze_pipeline (with_length case_01_downhill 60) = Ok r2 /\
    total_pressure_drop_pa (r_pressure_drop r1) <= total_pressure_drop_pa (r_pressure_drop r2) /\
    outlet_pressure_bar (r_outlet_pressure r2) <= outlet_pressure_bar (r_outlet_pressure r1).
Proof.
  destruct case_01_downhill_run as [r1 [H1 _]].
  change (analyze_pipeline (with_length case_01_downhill 30) = Ok r1) in H1.
  destruct (analyze_ok_other_length _ 60 _ H1) as [r2 H2].
  exists r1, r2.
  split; [lra | split; [exact H1 | split; [exact H2 |]]].
  exact (total_drop_monotone_in_length case_01_downhill 30 60 r1 r2 ltac:(lra) H1 H2).
Defined.

(** ** Failure modes of the orchestrator *)


(** ** Pressure budget of a report *)

Lemma friction_drop_nonneg (f l d v rho : R) :
  0 <= f -> 0 <= l -> 0 <= calculate_friction_pressure_drop f l d v rho.
Proof.
  intros Hf Hl. unfold calculate_friction_pressure_drop.
  destruct (Rleb d 0) eqn:Ed; cbn [orb]; [lra |].
  destruct (Rleb rho 0) eqn:Er; cbn [orb]; [lra |].
  assert (~ d <= 0) by (intro Hc; rewrite (Rleb_true _ _ Hc) in Ed; discriminate).
  assert (~ rho <= 0) by (intro Hc; rewrite (Rleb_true _ _ Hc) in Er; discriminate).
  apply Rmult_le_pos; [apply Rmult_le_pos; [exact Hf |] |].
  - unfold Rdiv. apply Rmult_le_pos; [exact Hl | left; apply Rinv_0_lt_compat; lra].
  - apply Rmult_le_pos; [apply Rmult_le_pos; [lra | apply pow2_ge_0] | lra].
Qed.

Lemma pressure_budget_aux (i : pipeline_input) (r : report) :
  0 <= pipe_length_km i ->
  analyze_pipeline i = Ok r ->
  let p := r_pressure_drop r in
  0 <= friction_loss_pa p /\
  minor_losses_pa p = friction_loss_pa p * 0.10 /\
  total_pressure_drop_pa p = friction_loss_pa p * 1.1 + elevation_change_pa p /\
  elevation_change_pa p
  = fluid_density_kg_m3 i * G_ACCELERATION * (elevation_end_m i - elevation_start_m i).
Proof.
  intro Hl. unfold analyze_pipeline.
  destruct (calculate_friction_factor _ _ _) as [[f m] | e] eqn:Ef; cbn [bind]; [| discriminate].
  destruct (PIPE_GRADES_get _); cbn [bind]; [| discriminate].
  intro H. injection H as <-. cbv zeta.
  cbn [r_pressure_drop friction_loss_pa minor_losses_pa total_pressure_drop_pa
    elevation_change_pa calculate_total_pressure_drop].
  pose proof (friction_factor_nonneg_aux _ _ _ _ _ Ef) as Hf.
  match goal with
  | |- context [calculate_friction_pressure_drop f ?l ?d ?v ?rho] =>
      pose proof (friction_drop_nonneg f l d v rho Hf ltac:(lra)) as Ha;
      set (dp_friction := calculate_friction_pressure_drop f l d v rho) in *
  end.
  rewrite (Rabs_right dp_friction) by lra.
  unfold calculate_elevation_pressure_drop.
  split; [exact Ha | split; [reflexivity | split; [lra | reflexivity]]].
Qed.

(** X14: for a non-negative length, the pressure-drop section of a report
    has a non-negative friction loss, minor losses of 10% of it, and a total
    of [1.1 * friction + elevation], the elevation term being
    [rho * g * (z_end - z_start)]. *)
Theorem report_pressure_budget (i : pipeline_input) (r : report) :
  0 <= pipe_length_km i ->
  analyze_pipeline i = Ok r ->
  let p := r_pressure_drop r in
  0 <= friction_loss_pa p /\
  minor_losses_pa p = friction_loss_pa p * 0.10 /\
  total_pressure_drop_pa p = friction_loss_pa p * 1.1 + elevation_change_pa p /\
  elevation_change_pa p
  = fluid_density_kg_m3 i * G_ACCELERATION * (elevation_end_m i - elevation_start_m i).
Proof. apply pressure_budget_aux. Qed.

Lemma report_pressure_budget_witness :
  exists r, 0 <= pipe_length_km case_01_downhill /\ analyze_pipeline case_01_downhill = Ok r /\
    0 <= friction_loss_pa (r_pressure_drop r).
Proof.
  destruct case_01_downhill_run as [r [H _]].
  exists r. split; [cbn; lra | split; [exact H |]].
  exact (proj1 (report_pressure_budget case_01_downhill r ltac:(cbn; lra) H)).
Defined.

(** ** Flow section of the report *)

(** X15: for a positive internal diameter and a non-zero viscosity the
    reported Reynolds number is [4 Q / (pi D mu)]: the velocity
    [Q / (pi (D/2)^2)] times [D] over the viscosity, with no density
    factor. *)
Theorem report_reynolds_formula (i : pipeline_input) (r : report) :
  0 < calculate_internal_diameter (pipe_od_mm i) (wall_thickness_mm i) ->
  fluid_viscosity_pa_s i <> 0 ->
  analyze_pipeline i = Ok r ->
  reynolds_number (r_flow_properties r)
  = Fin (4 * flow_rate_m3_s i
         / (PI * (calculate_internal_diameter (pipe_od_mm i) (wall_thickness_mm i) / 1000)
            * fluid_viscosity_pa_s i)).
Proof.
  intros Hd Hv. unfold analyze_pipeline.
  destruct (calculate_friction_factor _ _ _) as [[f m] | e]; cbn [bind]; [| discriminate].
  destruct (PIPE_GRADES_get _); cbn [bind]; [| discriminate].
  intro H. injection H as <-. cbn [r_flow_properties reynolds_number].
  set (id := calculate_internal_diameter (pipe_od_mm i) (wall_thickness_mm i)) in *.
  unfold calculate_reynolds_number, calculate_flow_velocity.
  rewrite (Reqb_false _ 0 Hv). rewrite (Rleb_false (id / 1000) 0) by lra.
  f_equal. pose proof PI_RGT_0. field. lra.
Qed.

Lemma report_reynolds_formula_witness :
  exists r,
    0 < calculate_internal_diameter (pipe_od_mm case_01_downhill) (wall_thickness_mm case_01_downhill) /\
    fluid_viscosity_pa_s case_01_downhill <> 0 /\
    analyze_pipeline case_01_downhill = Ok r /\
    reynolds_number (r_flow_properties r)
    = Fin (4 * 0.05 / (PI * (calculate_internal_diameter 323.9 6.4 / 1000) * 0.001)).
Proof.
  destruct case_01_downhill_run as [r [H _]].
  assert (Hd : 0 < calculate_internal_diameter (pipe_od_mm case_01_downhill)
                     (wall_thickness_mm case_01_downhill))
    by (cbn; unfold calculate_internal_diameter; lra).
  assert (Hv : fluid_viscosity_pa_s case_01_downhill <> 0) by (cbn; lra).
  exists r. split; [exact Hd | split; [exact Hv | split; [exact H |]]].
  exact (report_reynolds_formula case_01_downhill r Hd Hv H).
Defined.

(** X16: when the report's friction method is ["Laminar"] (positive
    diameter, positive flow and viscosity) the friction loss is
    [32 mu rho L v / D^2]: [f = 64 / Re] with the source's
    [Re = v D / mu], times [(L / D) rho v^2 / 2]. *)
Theorem laminar_report_friction_loss (i : pipeline_input) (r : report) :
  0 < calculate_internal_diameter (pipe_od_mm i) (wall_thickness_mm i) ->
  0 < flow_rate_m3_s i -> 0 < fluid_viscosity_pa_s i -> 0 < fluid_density_kg_m3 i ->
  analyze_pipeline i = Ok r ->
  calculation_method (r_friction r) = "Laminar" ->
  friction_loss_pa (r_pressure_drop r)
  = 32 * fluid_viscosity_pa_s i * fluid_density_kg_m3 i * (pipe_length_km i * 1000)
    * velocity_ms (r_flow_properties r)
    / (internal_diameter_m (r_pipe_dimensions r)) ^ 2.
Proof.
  intros Hd Hq Hmu Hrho. unfold analyze_pipeline.
  set (id := calculate_internal_diameter (pipe_od_mm i) (wall_thickness_mm i)) in *.
  set (v := calculate_flow_velocity (flow_rate_m3_s i) (id / 1000)).
  assert (Hv : 0 < v).
  { unfold v, calculate_flow_velocity. rewrite (Rleb_false (id / 1000) 0) by lra.
    apply Rdiv_lt_0_compat; [lra |].
    apply Rmult_lt_0_compat; [exact PI_RGT_0 | apply pow_lt; lra]. }
  unfold calculate_reynolds_number. rewrite (Reqb_false (fluid_viscosity_pa_s i) 0) by lra.
  unfold calculate_friction_factor at 1. rewrite (Rleb_false (id / 1000) 0) by lra.
  destruct (Rltb (v * (id / 1000) / fluid_viscosity_pa_s i) 2300).
  - cbn [bind]. destruct (PIPE_GRADES_get _); cbn [bind]; [| discriminate].
    intros H _. injection H as <-.
    cbn [r_pressure_drop friction_loss_pa r_flow_properties velocity_ms
      r_pipe_dimensions internal_diameter_m].
    fold v.
    assert (Hre : 0 < v * (id / 1000) / fluid_viscosity_pa_s i)
      by (apply Rdiv_lt_0_compat; [nra | lra]).
    unfold calculate_friction_pressure_drop, calculate_friction_factor_laminar.
    rewrite (Rleb_false (id / 1000) 0) by lra.
    rewrite (Rleb_false (fluid_density_kg_m3 i) 0) by lra. cbn [orb].
    rewrite (Rleb_false (v * (id / 1000) / fluid_viscosity_pa_s i) 0) by lra.
    field. repeat split; lra.
  - destruct (calculate_friction_factor_turbulent_colebrook _ _); cbn [bind]; [| discriminate].
    destruct (PIPE_GRADES_get _); cbn [bind]; [| discriminate].
    intro H. injection H as <-. cbn. discriminate.
Qed.

Lemma case_01_downhill_laminar (r : report) :
  analyze_pipeline case_01_downhill = Ok r -> calculation_method (r_friction r) = "Laminar".
Proof.
  pose proof PI_gt_3 as H3. pose proof PI_4 as H4.
  unfold analyze_pipeline, case_01_downhill. cbn [pipe_od_mm wall_thickness_mm flow_rate_m3_s
    fluid_viscosity_pa_s pipe_roughness_m pipe_grade_key].
  unfold calculate_flow_velocity, calculate_internal_diameter, calculate_reynolds_number.
  replace ((323.9 - 2 * 6.4) / 1000) with 0.3111 by lra.
  decide_R.
  set (v := 0.05 / (PI * (0.3111 / 2) ^ 2)).
  assert (Hv : v < 0.7).
  { unfold v. apply Rmult_lt_reg_r with (PI * (0.3111 / 2) ^ 2). nra.
    unfold Rdiv at 1. rewrite Rmult_assoc, Rinv_l by nra. nra. }
  unfold calculate_friction_factor. decide_R. cbn [bind].
  destruct (PIPE_GRADES_get _); cbn [bind]; [| discriminate].
  intro H. injection H as <-. reflexivity.
Qed.

Lemma laminar_report_friction_loss_witness :
  exists r,
    0 < calculate_internal_diameter (pipe_od_mm case_01_downhill) (wall_thickness_mm case_01_downhill) /\
    0 < flow_rate_m3_s case_01_downhill /\ 0 < fluid_viscosity_pa_s case_01_downhill /\
    0 < fluid_density_kg_m3 case_01_downhill /\
    analyze_pipeline case_01_downhill = Ok r /\
    calculation_method (r_friction r) = "Laminar" /\
    friction_loss_pa (r_pressure_drop r)
    = 32 * 0.001 * 900 * (30 * 1000) * velocity_ms (r_flow_properties r)
      / (internal_diameter_m (r_pipe_dimensions r)) ^ 2.
Proof.
  destruct case_01_downhill_run as [r [H _]].
  pose proof (case_01_downhill_laminar r H) as Hm.
  assert (Hd : 0 < calculate_internal_diameter (pipe_od_mm case_01_downhill)
                     (wall_thickness_mm case_01_downhill))
    by (cbn; unfold calculate_internal_diameter; lra).
  assert (Hq : 0 < flow_rate_m3_s case_01_downhill) by (cbn; lra).
  assert (Hmu : 0 < fluid_viscosity_pa_s case_01_downhill) by (cbn; lra).
  assert (Hrho : 0 < fluid_density_kg_m3 case_01_downhill) by (cbn; lra).
  exists r. do 6 (split; [assumption |]).
  exact (laminar_report_friction_loss case_01_downhill r Hd Hq Hmu Hrho H Hm).
Defined.

(** ** Containment verdicts *)

(** X17: at the required wall thickness (positive [P D], SMYS and design
    factor) the hoop stress is exactly the allowable stress
    [design_factor * SMYS]. *)
Theorem hoop_stress_at_required_thickness (p od smys_mpa design_factor : R) :
  0 < p * od -> 0 < smys_mpa -> 0 < design_factor ->
  calculate_hoop_stress p od (calculate_required_wall_thickness p od smys_mpa design_factor)
  = Fin (design_factor * smys_mpa).
Proof.
  intros Hp Hs Hf. unfold calculate_required_wall_thickness, calculate_hoop_stress.
  rewrite (Rleb_false smys_mpa 0), (Rleb_false design_factor 0) by lra. cbn [orb].
  assert (Hk : 0 < 2 * design_factor * smys_mpa) by nra.
  assert (Ht : 0 < p * od / (2 * design_factor * smys_mpa)) by (apply Rdiv_lt_0_compat; lra).
  rewrite (Rleb_false _ 0) by lra. f_equal. field. repeat split; nra.
Qed.

Lemma hoop_stress_at_required_thickness_witness :
  0 < 3 * 323.9 /\ 0 < 359 /\ 0 < 0.72 /\
  calculate_hoop_stress 3 323.9 (calculate_required_wall_thickness 3 323.9 359 0.72)
  = Fin (0.72 * 359).
Proof.
  split; [lra | split; [lra | split; [lra |]]].
  apply hoop_stress_at_required_thickness; lra.
Defined.

(** X18: an unsafe verdict always comes with a reported margin of [0]. *)
Theorem unsafe_zero_margin (hoop : ext) (smys_mpa design_factor : R) :
  safe (check_pressure_containment hoop smys_mpa design_factor) = false ->
  margin_percent (check_pressure_containment hoop smys_mpa design_factor) = 0.
Proof.
  unfold check_pressure_containment, py_max0. cbn [safe margin_percent].
  destruct hoop as [h |].
  - intro Hs.
    assert (Hh : design_factor * smys_mpa < h)
      by (destruct (Rle_dec h (design_factor * smys_mpa)) as [Hl | Hl];
          [rewrite (Rleb_true _ _ Hl) in Hs; discriminate | lra]).
    destruct (Rlt_dec 0 (design_factor * smys_mpa)) as [Ha | Ha].
    + rewrite (Rltb_true _ _ Ha).
      assert ((design_factor * smys_mpa - h) / (design_factor * smys_mpa) * 100 < 0).
      { assert (0 < / (design_factor * smys_mpa)) by (apply Rinv_0_lt_compat; lra).
        unfold Rdiv. nra. }
      decide_R. reflexivity.
    + rewrite (Rltb_false _ _ Ha). decide_R. reflexivity.
  - intros _. destruct (Rltb 0 (design_factor * smys_mpa)); [reflexivity |].
    decide_R. reflexivity.
Qed.

Lemma unsafe_zero_margin_witness :
  safe (check_pressure_containment (Fin 400) 359 0.72) = false /\
  margin_percent (check_pressure_containment (Fin 400) 359 0.72) = 0.
Proof.
  assert (H : safe (check_pressure_containment (Fin 400) 359 0.72) = false).
  { unfold check_pressure_containment. cbn [safe]. decide_R. reflexivity. }
  split; [exact H | exact (unsafe_zero_margin (Fin 400) 359 0.72 H)].
Defined.

(** ** Outlet pressure on a rising or level line *)

(** X19: on a level or rising line (non-negative length, density and
    operating pressure, [elevation_end >= elevation_start]) the reported
    outlet pressure never exceeds the inlet pressure and the reported loss
    percentage is non-negative. *)
Theorem uphill_outlet_not_above_inlet (i : pipeline_input) (r : report) :
  0 <= pipe_length_km i -> 0 <= fluid_density_kg_m3 i ->
  elevation_start_m i <= elevation_end_m i -> 0 <= operating_pressure_bar i ->
  analyze_pipeline i = Ok r ->
  outlet_pressure_bar (r_outlet_pressure r) <= inlet_pressure_bar (r_outlet_pressure r) /\
  0 <= pressure_loss_percent (r_outlet_pressure r).
Proof.
  intros Hl Hrho Hz Hop H.
  destruct (pressure_budget_aux i r Hl H) as [Hf [_ [Ht He]]].
  apply analyze_outlet_section in H. rewrite H.
  set (t := total_pressure_drop_pa (r_pressure_drop r)) in *.
  assert (Ht0 : 0 <= t).
  { rewrite Ht, He. unfold G_ACCELERATION.
    assert (0 <= fluid_density_kg_m3 i * (elevation_end_m i - elevation_start_m i)) by nra.
    lra. }
  unfold outlet_section, py_max0. cbn [outlet_pressure_bar inlet_pressure_bar
    pressure_loss_percent].
  split.
  - destruct (Rltb 0 _); [| exact Hop].
    unfold Rdiv. rewrite Rmult_minus_distr_r.
    assert (E : operating_pressure_bar i * 100000 * / 100000 = operating_pressure_bar i) by field.
    rewrite E. assert (0 <= t * / 100000) by (apply Rmult_le_pos; lra). lra.
  - destruct (Rlt_dec 0 (operating_pressure_bar i * 100000)) as [Hp | Hp].
    + rewrite (Rltb_true _ _ Hp). apply Rmult_le_pos; [| lra].
      unfold Rdiv. apply Rmult_le_pos; [exact Ht0 | left; apply Rinv_0_lt_compat; exact Hp].
    + rewrite (Rltb_false _ _ Hp). lra.
Qed.

Lemma analyze_ok_uphill (r0 : report) :
  analyze_pipeline case_01_downhill = Ok r0 -> exists r, analyze_pipeline case_01 = Ok r.
Proof.
  unfold analyze_pipeline, case_01, case_01_downhill. cbn [pipe_length_km
    flow_rate_m3_s pipe_od_mm wall_thickness_mm elevation_start_m elevation_end_m
    operating_pressure_bar fluid_density_kg_m3 fluid_viscosity_pa_s pipe_roughness_m
    pipe_grade_key].
  destruct (calculate_friction_factor _ _ _) as [[f m] | e]; cbn [bind]; [| discriminate].
  destruct (PIPE_GRADES_get _); cbn [bind]; [| discriminate].
  intros _. eexists. reflexivity.
Qed.

Lemma uphill_outlet_not_above_inlet_witness :
  exists r,
    0 <= pipe_length_km case_01 /\ 0 <= fluid_density_kg_m3 case_01 /\
    elevation_start_m case_01 <= elevation_end_m case_01 /\ 0 <= operating_pressure_bar case_01 /\
    analyze_pipeline case_01 = Ok r /\
    outlet_pressure_bar (r_outlet_pressure r) <= inlet_pressure_bar (r_outlet_pressure r).
Proof.
  destruct case_01_downhill_run as [r0 [H0 _]].
  destruct (analyze_ok_uphill r0 H0) as [r H].
  assert (H1 : 0 <= pipe_length_km case_01) by (cbn; lra).
  assert (H2 : 0 <= fluid_density_kg_m3 case_01) by (cbn; lra).
  assert (H3 : elevation_start_m case_01 <= elevation_end_m case_01) by (cbn; lra).
  assert (H4 : 0 <= operating_pressure_bar case_01) by (cbn; lra).
  exists r. do 5 (split; [assumption |]).
  exact (proj1 (uphill_outlet_not_above_inlet case_01 r H1 H2 H3 H4 H)).
Defined.

(** ** Degenerate geometry *)

(** X20: when the wall is at least half the outside diameter (internal
    diameter [<= 0]) a successful run reports velocity [0], friction factor
    [0] with method ["Invalid diameter"], no friction loss, and a total drop
    equal to the elevation term; this holds for every viscosity, zero
    included. *)
Theorem thick_wall_report (i : pipeline_input) (r : report) :
  calculate_internal_diameter (pipe_od_mm i) (wall_thickness_mm i) <= 0 ->
  analyze_pipeline i = Ok r ->
  velocity_ms (r_flow_properties r) = 0 /\
  friction_factor (r_friction r) = 0 /\
  calculation_method (r_friction r) = "Invalid diameter" /\
  friction_loss_pa (r_pressure_drop r) = 0 /\
  total_pressure_drop_pa (r_pressure_drop r) = elevation_change_pa (r_pressure_drop r).
Proof.
  intro Hd. unfold analyze_pipeline.
  set (id := calculate_internal_diameter (pipe_od_mm i) (wall_thickness_mm i)) in *.
  assert (Hm : id / 1000 <= 0).
  { unfold Rdiv. assert (0 < / 1000) by (apply Rinv_0_lt_compat; lra). nra. }
  unfold calculate_friction_factor at 1. rewrite (Rleb_true _ _ Hm). cbn [bind].
  destruct (PIPE_GRADES_get _); cbn [bind]; [| discriminate].
  intro H. injection H as <-.
  cbn [r_flow_properties velocity_ms r_friction friction_factor calculation_method
    r_pressure_drop friction_loss_pa total_pressure_drop_pa elevation_change_pa].
  unfold calculate_flow_velocity, calculate_friction_pressure_drop.
  rewrite (Rleb_true _ _ Hm). cbn [orb]. rewrite Rabs_R0.
  repeat split; try reflexivity. lra.
Qed.

Lemma thick_wall_report_witness :
  exists r,
    calculate_internal_diameter (pipe_od_mm (mk_input 0.05 10 6.4 30 0 100 20 900 0 0.000045 "X52"))
      (wall_thickness_mm (mk_input 0.05 10 6.4 30 0 100 20 900 0 0.000045 "X52")) <= 0 /\
    analyze_pipeline (mk_input 0.05 10 6.4 30 0 100 20 900 0 0.000045 "X52") = Ok r /\
    friction_loss_pa (r_pressure_drop r) = 0.
Proof.
  assert (Hd : calculate_internal_diameter
                 (pipe_od_mm (mk_input 0.05 10 6.4 30 0 100 20 900 0 0.000045 "X52"))
                 (wall_thickness_mm (mk_input 0.05 10 6.4 30 0 100 20 900 0 0.000045 "X52"))
               <= 0) by (cbn; unfold calculate_internal_diameter; lra).
  assert (H : exists r,
             analyze_pipeline (mk_input 0.05 10 6.4 30 0 100 20 900 0 0.000045 "X52") = Ok r).
  { unfold analyze_pipeline. cbn [pipe_od_mm wall_thickness_mm flow_rate_m3_s
      fluid_viscosity_pa_s pipe_roughness_m pipe_grade_key].
    unfold calculate_friction_factor at 1.
    rewrite (Rleb_true (calculate_internal_diameter 10 6.4 / 1000) 0)
      by (unfold calculate_internal_diameter; lra).
    eexists. reflexivity. }
  destruct H as [r H].
  exists r. split; [exact Hd | split; [exact H |]].
  exact (proj1 (proj2 (proj2 (proj2 (thick_wall_report _ r Hd H))))).
Defined.

(** ** constants.py *)

(** X21: every grade of [PIPE_GRADES] has a positive SMYS below its tensile
    strength. *)
Theorem pipe_grades_smys_below_tensile (k : string) (g : pipe_grade) :
  PIPE_GRADES_get k = Ok g -> 0 < SMYS g < tensile_strength g.
Proof.
  unfold PIPE_GRADES_get, PIPE_GRADES. cbn [lookup_grade].
  destruct (String.eqb k "X42"); [intro H; injection H as <-; cbn; lra |].
  destruct (String.eqb k "X52"); [intro H; injection H as <-; cbn; lra |].
  destruct (String.eqb k "X60"); [intro H; injection H as <-; cbn; lra |].
  destruct (String.eqb k "X65"); [intro H; injection H as <-; cbn; lra |].
  discriminate.
Qed.

Lemma pipe_grades_smys_below_tensile_witness :
  PIPE_GRADES_get "X65" = Ok (mk_grade "API 5L X65" 448 531 "High Strength Carbon Steel") /\
  0 < 448 < 531.
Proof.
  assert (H : PIPE_GRADES_get "X65"
              = Ok (mk_grade "API 5L X65" 448 531 "High Strength Carbon Steel"))
    by reflexivity.
  split; [exact H | exact (pipe_grades_smys_below_tensile _ _ H)].
Defined.

(** ** Monotonicity of the correlations *)

(** X23: the Blasius smooth-pipe factor [0.316 * Re^(-0.25)] strictly
    decreases as the (positive, finite) Reynolds number grows. *)
Theorem blasius_decreasing (re1 re2 : R) :
  0 < re1 -> re1 < re2 -> blasius (Fin re2) < blasius (Fin re1).
Proof.
  intros H1 H12. unfold blasius, Rpower.
  apply Rmult_lt_compat_l; [lra |]. apply exp_increasing.
  pose proof (ln_increasing re1 re2 H1 H12). lra.
Qed.

Lemma blasius_decreasing_witness :
  0 < 3000 /\ 3000 < 100000 /\ blasius (Fin 100000) < blasius (Fin 3000).
Proof.
  split; [lra | split; [lra |]]. apply blasius_decreasing; lra.
Defined.

(** X24: with a non-negative [pressure * diameter], a thicker wall never
    turns a safe containment verdict into an unsafe one. *)
Theorem thicker_wall_stays_safe (p od t1 t2 smys_mpa design_factor : R) :
  0 <= p * od -> t1 <= t2 ->
  safe (check_pressure_containment (calculate_hoop_stress p od t1) smys_mpa design_factor) = true ->
  safe (check_pressure_containment (calculate_hoop_stress p od t2) smys_mpa design_factor) = true.
Proof.
  intros Hp Ht. unfold calculate_hoop_stress, check_pressure_containment. cbn [safe].
  destruct (Rle_dec t1 0) as [H1 | H1]; [rewrite (Rleb_true _ _ H1); discriminate |].
  rewrite (Rleb_false _ _ H1), (Rleb_false t2 0) by lra.
  rewrite !Rleb_spec. intro Hs. eapply Rle_trans; [| exact Hs].
  unfold Rdiv. apply Rmult_le_compat_l; [exact Hp |].
  apply Rinv_le_contravar; lra.
Qed.

Lemma thicker_wall_stays_safe_witness :
  0 <= 3 * 323.9 /\ 6.4 <= 9.5 /\
  safe (check_pressure_containment (calculate_hoop_stress 3 323.9 6.4) 359 0.72) = true /\
  safe (check_pressure_containment (calculate_hoop_stress 3 323.9 9.5) 359 0.72) = true.
Proof.
  assert (H : safe (check_pressure_containment (calculate_hoop_stress 3 323.9 6.4) 359 0.72)
              = true).
  { unfold calculate_hoop_stress, check_pressure_containment. decide_R. reflexivity. }
  split; [lra | split; [lra | split; [exact H |]]].
  exact (thicker_wall_stays_safe 3 323.9 6.4 9.5 359 0.72 ltac:(lra) ltac:(lra) H).
Defined.
